(** * open-radar: the adapters of [semper-fi/app/adapters.py]

    The module defines two classes.  [SimAdapter] has an empty body.
    [MilitaryOSINTAdapter] has a constructor that stores its [config]
    argument on the instance, and a method [poll] whose body is [pass].

    The classes are embedded shallowly: every method body is a Rocq
    function in a state-and-exception monad over a Python-like store of
    objects.  What the Python runtime does around the bodies (allocating the
    instance, binding the arguments of a call, looking an attribute up) is
    modelled next to them, so that "constructing" and "invoking" mean what
    they mean in Python. *)

From stdpp Require Import gmap strings list fin_maps.

Local Open Scope string_scope.

(** ** Values and objects *)

(** Objects live in a store and are named by their location; a location
    plays the part of Python's [id]. *)
Definition loc := positive.

(** The two classes of the module. *)
Inductive classname :=
  | SimAdapter
  | MilitaryOSINTAdapter.

#[global] Instance classname_eq_dec : EqDecision classname.
Proof. solve_decision. Defined.

(** A value is an immediate or a reference to an object of the store.
    [VMethod l f] is the bound method obtained by reading the function
    attribute [f] of the class through the instance at [l]. *)
Inductive value :=
  | VNone
  | VBool (b : bool)
  | VInt (n : Z)
  | VStr (s : string)
  | VRef (l : loc)
  | VMethod (l : loc) (f : string).

#[global] Instance value_eq_dec : EqDecision value.
Proof. solve_decision. Defined.

(** An object of the store: an instance of one of the two classes with its
    attribute dictionary ([__dict__]), or a builtin container.  Containers
    hold values, hence references: a list stored in two places is one
    object. *)
Inductive object :=
  | OInstance (cls : classname) (attrs : gmap string value)
  | OList (items : list value)
  | ODict (items : list (value * value)).

(** What a run can do to the outside: the comments of the module speak of
    fetching imagery and publishing updates. *)
Inductive event :=
  | EvFetch (url : string)
  | EvPublish (payload : value).

Record world := World {
  heap : gmap loc object;
  effects : list event
}.

(** The exceptions the runtime can raise around the code of the module. *)
Inductive exn :=
  | TypeError
  | AttributeError
  | NameError
  | SystemError.

#[global] Instance exn_eq_dec : EqDecision exn.
Proof. solve_decision. Defined.

(** ** The monad of Python computations

    A computation runs in a world and ends either normally with a value or
    with a raised exception; in both cases it leaves a world behind, since
    an exception does not roll the store back. *)
Inductive outcome (A : Type) :=
  | Ok (a : A)
  | Raise (e : exn).
Arguments Ok {A} a.
Arguments Raise {A} e.

Definition M (A : Type) : Type := world -> outcome A * world.

Definition ret {A} (a : A) : M A := fun w => (Ok a, w).
Definition raise {A} (e : exn) : M A := fun w => (Raise e, w).
Definition bind {A B} (m : M A) (k : A -> M B) : M B :=
  fun w =>
    match m w with
    | (Ok a, w') => k a w'
    | (Raise e, w') => (Raise e, w')
    end.

Declare Scope py_scope.
Delimit Scope py_scope with py.
Notation "x <- m ;; k" := (bind m (fun x => k))
  (at level 100, m at next level, right associativity) : py_scope.
Notation "m ;;; k" := (bind m (fun _ => k))
  (at level 100, right associativity) : py_scope.
Local Open Scope py_scope.

(** [try: body except: handler] -- the module never uses it; it is here so
    that the absence of handlers can be stated. *)
Definition try_except {A} (body : M A) (handler : exn -> M A) : M A :=
  fun w =>
    match body w with
    | (Ok a, w') => (Ok a, w')
    | (Raise e, w') => handler e w'
    end.

Definition returned {A} (r : outcome A * world) : option A :=
  match fst r with Ok a => Some a | Raise _ => None end.
Definition raised {A} (r : outcome A * world) : option exn :=
  match fst r with Ok _ => None | Raise e => Some e end.
Definition final {A} (r : outcome A * world) : world := snd r.

(** ** Store operations *)

(** [object.__new__]'s allocation: a fresh location holding an instance
    with an empty dictionary. *)
Definition alloc (o : object) : M value :=
  fun w =>
    let l := fresh (dom (heap w)) in
    (Ok (VRef l), World (<[l := o]> (heap w)) (effects w)).

(** [obj.name = v].  Only instances of the module's classes have a
    dictionary; immediates and builtin containers refuse the assignment
    with an AttributeError. *)
Definition setattr (obj : value) (name : string) (v : value) : M unit :=
  fun w =>
    match obj with
    | VRef l =>
        match heap w !! l with
        | Some (OInstance cls attrs) =>
            (Ok tt, World (<[l := OInstance cls (<[name := v]> attrs)]> (heap w))
                          (effects w))
        | Some _ => (Raise AttributeError, w)
        | None => (Raise SystemError, w)
        end
    | _ => (Raise AttributeError, w)
    end.

(** ** Calling a function

    The functions of the module take positional-or-keyword parameters
    without defaults.  Binding fills one slot per parameter: positional
    arguments from the left, then each keyword argument by name; a call
    with too many positional arguments, an unknown or repeated keyword, or
    an empty slot left is a TypeError. *)
Definition slots := list (string * option value).

Fixpoint positional (params : list string) (args : list value)
  : option slots :=
  match params, args with
  | [], [] => Some []
  | [], _ :: _ => None
  | p :: ps, [] => cons (p, None) <$> positional ps []
  | p :: ps, a :: args' => cons (p, Some a) <$> positional ps args'
  end.

Fixpoint keyword (k : string) (v : value) (sl : slots) : option slots :=
  match sl with
  | [] => None
  | (p, o) :: sl' =>
      if decide (p = k)
      then match o with
           | None => Some ((p, Some v) :: sl')
           | Some _ => None
           end
      else cons (p, o) <$> keyword k v sl'
  end.

Fixpoint keywords (kwargs : list (string * value)) (sl : slots)
  : option slots :=
  match kwargs with
  | [] => Some sl
  | (k, v) :: kwargs' =>
      match keyword k v sl with
      | Some sl' => keywords kwargs' sl'
      | None => None
      end
  end.

Definition filled (sl : slots) : option (list value) := mapM snd sl.

Definition bind_args (params : list string)
    (args : list value) (kwargs : list (string * value))
  : option (list value) :=
  match positional params args with
  | Some sl =>
      match keywords kwargs sl with
      | Some sl' => filled sl'
      | None => None
      end
  | None => None
  end.

(** A function of the module: its name, its parameters in order, and its
    body as a computation over the arguments in parameter order. *)
Record pyfun := Def {
  fn_name : string;
  fn_params : list string;
  fn_body : list value -> M value
}.

Definition def1 (name p1 : string) (body : value -> M value) : pyfun :=
  Def name [p1]
      (fun vs => match vs with
                 | [a] => body a
                 | _ => raise SystemError
                 end).

Definition def2 (name p1 p2 : string) (body : value -> value -> M value)
  : pyfun :=
  Def name [p1; p2]
      (fun vs => match vs with
                 | [a; b] => body a b
                 | _ => raise SystemError
                 end).

Definition call_function (f : pyfun)
    (args : list value) (kwargs : list (string * value)) : M value :=
  match bind_args (fn_params f) args kwargs with
  | Some vs => fn_body f vs
  | None => raise TypeError
  end.

(** ** The module [adapters.py] *)

(** The statement [pass]. *)
Definition pass : M unit := ret tt.

(** [class MilitaryOSINTAdapter]. A body that ends without [return] yields
    [None]. *)
Module MilitaryOSINTAdapter.

(** [def __init__(self, config): self.config = config] *)
Definition __init__ (self config : value) : M value :=
  setattr self "config" config ;;;
  ret VNone.

(** [def poll(self): pass] *)
Definition poll (self : value) : M value :=
  pass ;;;
  ret VNone.

End MilitaryOSINTAdapter.

(** The namespace of each class, in definition order: [SimAdapter]'s body
    is [pass] and binds nothing. *)
Definition class_dict (cls : classname) : list (string * pyfun) :=
  match cls with
  | SimAdapter => []
  | MilitaryOSINTAdapter =>
      [ ("__init__", def2 "__init__" "self" "config" MilitaryOSINTAdapter.__init__);
        ("poll", def1 "poll" "self" MilitaryOSINTAdapter.poll) ]
  end.

Fixpoint assoc {A} (k : string) (l : list (string * A)) : option A :=
  match l with
  | [] => None
  | (k', a) :: l' => if decide (k' = k) then Some a else assoc k l'
  end.

Definition class_lookup (cls : classname) (name : string) : option pyfun :=
  assoc name (class_dict cls).

(** ** Attribute access and calls *)

(** [obj.name] for the names of this module: the instance dictionary
    first, then the class, whose functions are read as bound methods.  The
    attributes every object inherits from [object] and the methods of the
    builtin containers are not part of the module and are not modelled. *)
Definition getattr (obj : value) (name : string) : M value :=
  fun w =>
    match obj with
    | VRef l =>
        match heap w !! l with
        | Some (OInstance cls attrs) =>
            match attrs !! name with
            | Some v => (Ok v, w)
            | None =>
                match class_lookup cls name with
                | Some _ => (Ok (VMethod l name), w)
                | None => (Raise AttributeError, w)
                end
            end
        | Some _ => (Raise AttributeError, w)
        | None => (Raise SystemError, w)
        end
    | _ => (Raise AttributeError, w)
    end.

(** The call of a value with positional and keyword arguments: a bound
    method calls its function with the instance in front of the arguments;
    nothing else among the values is callable. *)
Definition call (callee : value)
    (args : list value) (kwargs : list (string * value)) : M value :=
  fun w =>
    match callee with
    | VMethod l name =>
        match heap w !! l with
        | Some (OInstance cls _) =>
            match class_lookup cls name with
            | Some f => call_function f (VRef l :: args) kwargs w
            | None => (Raise SystemError, w)
            end
        | _ => (Raise SystemError, w)
        end
    | _ => (Raise TypeError, w)
    end.

(** A method call on [obj] with positional and keyword arguments. *)
Definition call_method (obj : value) (name : string)
    (args : list value) (kwargs : list (string * value)) : M value :=
  m <- getattr obj name ;;
  call m args kwargs.

(** ** Instantiation: calling the class *)

Definition excess_args (args : list value) (kwargs : list (string * value))
  : bool :=
  negb (bool_decide (args = []) && bool_decide (kwargs = [])).

Definition defines (cls : classname) (name : string) : bool :=
  bool_decide (is_Some (class_lookup cls name)).

(** [object.__new__]: neither class overrides it.  Extra arguments are
    accepted only when the class has an [__init__] of its own to take
    them. *)
Definition object___new__ (cls : classname)
    (args : list value) (kwargs : list (string * value)) : M value :=
  if excess_args args kwargs && negb (defines cls "__init__")
  then raise TypeError
  else alloc (OInstance cls ∅).

(** [object.__init__], inherited by a class without an [__init__]. *)
Definition object___init__ (self : value)
    (args : list value) (kwargs : list (string * value)) : M value :=
  if excess_args args kwargs then raise TypeError else ret VNone.

(** [type.__call__]: allocate, initialise, and hand the instance back;
    [__init__] must return [None]. *)
Definition construct (cls : classname)
    (args : list value) (kwargs : list (string * value)) : M value :=
  obj <- object___new__ cls args kwargs ;;
  r <- match class_lookup cls "__init__" with
       | Some f => call_function f (obj :: args) kwargs
       | None => object___init__ obj args kwargs
       end ;;
  match r with
  | VNone => ret obj
  | _ => raise TypeError
  end.

(** The empty world, and a world holding a dictionary and a list. *)
Definition w0 : world := World ∅ [].
Definition w1 : world :=
  World (<[2%positive := OList [VInt 1; VRef 1%positive]]>
           (<[1%positive := ODict [(VStr "url", VStr "eos.com/api")]]> ∅))
        [EvFetch "eos.com/api"].

(** A run of the module: build an adapter from [c], then invoke [poll] on
    it [n] times, one call after the other. *)
Fixpoint polls (n : nat) (a : value) : M unit :=
  match n with
  | O => ret tt
  | S n' => call_method a "poll" [] [] ;;; polls n' a
  end.

Definition adapter_run (c : value) (n : nat) : M value :=
  a <- construct MilitaryOSINTAdapter [c] [] ;;
  polls n a ;;;
  ret a.

(** ** The text of the module

    The syntax of the two class statements, kept next to the embedding so
    that what the text contains (and does not contain) can be stated.  The
    grammar covers the statements a method body can be made of here:
    [pass], an attribute assignment, a sequence, [raise] and
    [try]/[except]. *)
Module Source.

Inductive expr :=
  | EName (x : string)
  | EConst (v : value).

Inductive stmt :=
  | SPass
  | SAssignAttr (obj : expr) (attr : string) (rhs : expr)
  | SSeq (s1 s2 : stmt)
  | SRaise (e : exn)
  | STry (body handler : stmt).

Record fundef := FunDef {
  fd_name : string;
  fd_params : list string;
  fd_body : stmt
}.

(** A class body is a list of statements, each [pass] or a [def]. *)
Inductive class_stmt :=
  | CPass
  | CDef (fd : fundef).

Record classdef := ClassDef {
  cd_name : classname;
  cd_body : list class_stmt
}.

Fixpoint raises (s : stmt) : bool :=
  match s with
  | SPass | SAssignAttr _ _ _ => false
  | SSeq s1 s2 => raises s1 || raises s2
  | SRaise _ => true
  | STry b h => raises b || raises h
  end.

Fixpoint handles (s : stmt) : bool :=
  match s with
  | SPass | SAssignAttr _ _ _ | SRaise _ => false
  | SSeq s1 s2 => handles s1 || handles s2
  | STry _ _ => true
  end.

Definition env := list (string * value).

Definition eval (ρ : env) (e : expr) : M value :=
  match e with
  | EName x =>
      match assoc x ρ with
      | Some v => ret v
      | None => raise NameError
      end
  | EConst v => ret v
  end.

Fixpoint exec (ρ : env) (s : stmt) : M unit :=
  match s with
  | SPass => pass
  | SAssignAttr obj attr rhs =>
      v <- eval ρ rhs ;;
      o <- eval ρ obj ;;
      setattr o attr v
  | SSeq s1 s2 => exec ρ s1 ;;; exec ρ s2
  | SRaise e => raise e
  | STry b h => try_except (exec ρ b) (fun _ => exec ρ h)
  end.

(** Running a function on arguments already bound to its parameters. *)
Definition run (fd : fundef) (vs : list value) : M value :=
  exec (zip (fd_params fd) vs) (fd_body fd) ;;;
  ret VNone.

Definition defs (cd : classdef) : list fundef :=
  omap (fun cs => match cs with CPass => None | CDef fd => Some fd end)
       (cd_body cd).

(** [class SimAdapter: pass] *)
Definition SimAdapter_src : classdef :=
  ClassDef SimAdapter [CPass].

(** [class MilitaryOSINTAdapter] with its two [def]s. *)
Definition __init___src : fundef :=
  FunDef "__init__" ["self"; "config"]
         (SAssignAttr (EName "self") "config" (EName "config")).

Definition poll_src : fundef :=
  FunDef "poll" ["self"] SPass.

Definition MilitaryOSINTAdapter_src : classdef :=
  ClassDef MilitaryOSINTAdapter [CDef __init___src; CDef poll_src].

Definition module_src : list classdef :=
  [SimAdapter_src; MilitaryOSINTAdapter_src].

Definition class_src (cls : classname) : classdef :=
  match cls with
  | SimAdapter => SimAdapter_src
  | MilitaryOSINTAdapter => MilitaryOSINTAdapter_src
  end.

End Source.

(** ** States

    Names for what the theorems speak about. *)

(** The state [construct] leaves behind: the store of [w] with one more
    object at a location that was free. *)
Definition new_loc (w : world) : loc := fresh (dom (heap w)).

Definition with_object (w : world) (l : loc) (o : object) : world :=
  World (<[l := o]> (heap w)) (effects w).

(** An instance of [MilitaryOSINTAdapter] at [l] on which no instance
    attribute hides the method [poll]; the constructor leaves such an
    instance. *)
Definition adapter_at (w : world) (l : loc) (attrs : gmap string value)
  : Prop :=
  heap w !! l = Some (OInstance MilitaryOSINTAdapter attrs) /\
  attrs !! "poll" = None.

(** The state of the object a value refers to. *)
Definition state_of (w : world) (a : value) : option object :=
  match a with
  | VRef l => heap w !! l
  | _ => None
  end.

(** ** Clients of an adapter

    What a caller can do with an adapter once it is built: invoke [poll],
    or run [__init__] on it again with another configuration. *)
Inductive op :=
  | Poll
  | Init (c : value).

Definition run_op (a : value) (o : op) : M value :=
  match o with
  | Poll => call_method a "poll" [] []
  | Init c => call_method a "__init__" [c] []
  end.

Fixpoint run_ops (a : value) (ops : list op) : M unit :=
  match ops with
  | [] => ret tt
  | o :: ops' => run_op a o ;;; run_ops a ops'
  end.

Definition adapter_session (c : value) (ops : list op) : M value :=
  a <- construct MilitaryOSINTAdapter [c] [] ;;
  run_ops a ops ;;;
  ret a.

(** The configuration given last, by the constructor or by a later
    [__init__]. *)
Fixpoint last_config (c : value) (ops : list op) : value :=
  match ops with
  | [] => c
  | Poll :: ops' => last_config c ops'
  | Init c' :: ops' => last_config c' ops'
  end.

(** Two adapters built one after the other. *)
Definition two_adapters (c1 c2 : value) : M (value * value) :=
  a1 <- construct MilitaryOSINTAdapter [c1] [] ;;
  a2 <- construct MilitaryOSINTAdapter [c2] [] ;;
  ret (a1, a2).

(** Whether a value refers to an object with an attribute dictionary, and
    whether it refers to nothing at all. *)
Definition has_dict (w : world) (v : value) : bool :=
  match v with
  | VRef l =>
      match heap w !! l with
      | Some (OInstance _ _) => true
      | _ => false
      end
  | _ => false
  end.

Definition dangling (w : world) (v : value) : bool :=
  match v with
  | VRef l =>
      match heap w !! l with
      | None => true
      | Some _ => false
      end
  | _ => false
  end.

(** The two ways of passing exactly the configuration [c]. *)
Definition passes_config (args : list value) (kwargs : list (string * value))
    (c : value) : Prop :=
  (args = [c] /\ kwargs = []) \/ (args = [] /\ kwargs = [("config", c)]).

(** A world with a [SimAdapter] instance that carries an attribute. *)
Definition w2 : world :=
  World {[1%positive := OInstance SimAdapter {["name" := VStr "sim"]}]} [].

(** * Properties *)

(** ** The runtime around the bodies *)

Lemma bind_ok {A B} (m : M A) (k : A -> M B) w a w' :
  m w = (Ok a, w') -> bind m k w = k a w'.
Proof. intros H. unfold bind. rewrite H. reflexivity. Qed.

Lemma bind_raise {A B} (m : M A) (k : A -> M B) w e w' :
  m w = (Raise e, w') -> bind m k w = (Raise e, w').
Proof. intros H. unfold bind. rewrite H. reflexivity. Qed.

Lemma new_loc_free w : heap w !! new_loc w = None.
Proof. apply not_elem_of_dom. unfold new_loc. apply is_fresh. Qed.

Lemma construct_MilitaryOSINTAdapter w c :
  construct MilitaryOSINTAdapter [c] [] w =
  (Ok (VRef (new_loc w)),
   with_object w (new_loc w) (OInstance MilitaryOSINTAdapter {["config" := c]})).
Proof.
  unfold construct, object___new__.
  change (excess_args [c] [] && negb (defines MilitaryOSINTAdapter "__init__"))
    with false.
  cbv iota.
  erewrite bind_ok by reflexivity.
  change (class_lookup MilitaryOSINTAdapter "__init__")
    with (Some (def2 "__init__" "self" "config" MilitaryOSINTAdapter.__init__)).
  cbv iota.
  unfold call_function.
  change (bind_args _ _ _) with (Some [VRef (fresh (dom (heap w))); c]).
  cbv iota. unfold def2, fn_body, MilitaryOSINTAdapter.__init__.
  unfold bind at 1. unfold bind at 1.
  unfold setattr. cbn [heap effects].
  rewrite lookup_insert_eq.
  cbn [ret]. unfold ret, with_object, new_loc.
  rewrite insert_insert_eq, insert_empty. reflexivity.
Qed.

Lemma construct_MilitaryOSINTAdapter_kw w c :
  construct MilitaryOSINTAdapter [] [("config", c)] w =
  construct MilitaryOSINTAdapter [c] [] w.
Proof. reflexivity. Qed.

Lemma construct_SimAdapter w :
  construct SimAdapter [] [] w =
  (Ok (VRef (new_loc w)), with_object w (new_loc w) (OInstance SimAdapter ∅)).
Proof. reflexivity. Qed.

Lemma constructed_adapter_at w c :
  adapter_at (with_object w (new_loc w)
                (OInstance MilitaryOSINTAdapter {["config" := c]}))
             (new_loc w) {["config" := c]}.
Proof.
  split.
  - unfold with_object. cbn [heap]. apply lookup_insert_eq.
  - apply lookup_singleton_ne. discriminate.
Qed.

Section Adapter.

Variables (w : world) (l : loc) (attrs : gmap string value).
Hypothesis Ha : adapter_at w l attrs.

Lemma getattr_poll : getattr (VRef l) "poll" w = (Ok (VMethod l "poll"), w).
Proof.
  destruct Ha as [Hl Hp]. unfold getattr. rewrite Hl, Hp. reflexivity.
Qed.

Lemma getattr_instance name v :
  attrs !! name = Some v -> getattr (VRef l) name w = (Ok v, w).
Proof.
  intros Hv. destruct Ha as [Hl _]. unfold getattr. rewrite Hl, Hv.
  reflexivity.
Qed.

(** Invoking [poll] with no argument returns [None] in the same world. *)
Lemma poll_returns : call_method (VRef l) "poll" [] [] w = (Ok VNone, w).
Proof.
  unfold call_method. erewrite bind_ok by apply getattr_poll.
  destruct Ha as [Hl _]. unfold call. rewrite Hl. reflexivity.
Qed.

(** With anything passed besides the receiver, binding fails. *)
Lemma poll_extra_positional x args kwargs :
  call_method (VRef l) "poll" (x :: args) kwargs w = (Raise TypeError, w).
Proof.
  unfold call_method. erewrite bind_ok by apply getattr_poll.
  destruct Ha as [Hl _]. unfold call. rewrite Hl. reflexivity.
Qed.

Lemma poll_extra_keyword k v kwargs :
  call_method (VRef l) "poll" [] ((k, v) :: kwargs) w = (Raise TypeError, w).
Proof.
  unfold call_method. erewrite bind_ok by apply getattr_poll.
  destruct Ha as [Hl _]. unfold call. rewrite Hl.
  change (class_lookup MilitaryOSINTAdapter "poll")
    with (Some (def1 "poll" "self" MilitaryOSINTAdapter.poll)).
  cbv iota. unfold call_function, bind_args.
  cbn [def1 fn_params positional fmap option_fmap option_map keywords keyword].
  destruct (decide ("self" = k)); reflexivity.
Qed.

Lemma polls_return n : polls n (VRef l) w = (Ok tt, w).
Proof.
  induction n as [|n IH]; [reflexivity|].
  cbn [polls]. erewrite bind_ok by apply poll_returns. exact IH.
Qed.

End Adapter.

(** A run ends where the construction ended. *)
Lemma adapter_run_eq w c n :
  adapter_run c n w = construct MilitaryOSINTAdapter [c] [] w.
Proof.
  unfold adapter_run.
  erewrite bind_ok by apply construct_MilitaryOSINTAdapter.
  erewrite bind_ok by (eapply polls_return, constructed_adapter_at).
  symmetry. apply construct_MilitaryOSINTAdapter.
Qed.

(** ** The text and the embedding agree *)

Lemma source_names cls :
  (Source.fd_name <$> Source.defs (Source.class_src cls)) = (fst <$> class_dict cls).
Proof. destruct cls; reflexivity. Qed.

Lemma source_adequate cls fd :
  fd ∈ Source.defs (Source.class_src cls) ->
  exists f,
    class_lookup cls (Source.fd_name fd) = Some f /\
    fn_name f = Source.fd_name fd /\
    fn_params f = Source.fd_params fd /\
    forall vs w, length vs = length (Source.fd_params fd) ->
                 fn_body f vs w = Source.run fd vs w.
Proof.
  destruct cls; cbn; intros Hfd.
  - inversion Hfd.
  - apply elem_of_cons in Hfd as [-> | Hfd];
      [| apply elem_of_cons in Hfd as [-> | Hfd]; [| inversion Hfd]].
    + eexists. split; [reflexivity|]. repeat split.
      intros [|self [|config [|? ?]]] w Hlen; try discriminate Hlen.
      reflexivity.
    + eexists. split; [reflexivity|]. repeat split.
      intros [|self [|? ?]] w Hlen; try discriminate Hlen.
      reflexivity.
Qed.

(** ** Construction *)

(** C1: for every configuration value [c], constructing
    [MilitaryOSINTAdapter] with [c] yields an adapter whose [config]
    attribute reads back as exactly [c]. *)
Theorem config_stored_unchanged (w : world) (c : value) :
  exists a w',
    construct MilitaryOSINTAdapter [c] [] w = (Ok a, w') /\
    getattr a "config" w' = (Ok c, w').
Proof.
  eexists _, _. split; [apply construct_MilitaryOSINTAdapter|].
  eapply getattr_instance; [apply constructed_adapter_at|].
  apply lookup_singleton_eq.
Qed.

(** C2: for every configuration value [c], whatever its kind, in every
    world, constructing [MilitaryOSINTAdapter] with [c] (passed by position
    or by keyword) returns an instance and raises nothing. *)
Theorem construction_total (w : world) (c : value) :
  (raised (construct MilitaryOSINTAdapter [c] [] w) = None /\
   is_Some (returned (construct MilitaryOSINTAdapter [c] [] w))) /\
  (raised (construct MilitaryOSINTAdapter [] [("config", c)] w) = None /\
   is_Some (returned (construct MilitaryOSINTAdapter [] [("config", c)] w))).
Proof.
  rewrite construct_MilitaryOSINTAdapter_kw, construct_MilitaryOSINTAdapter.
  repeat split; eexists; reflexivity.
Qed.

(** C8: the [config] parameter of the constructor is required: called with
    no argument at all, [MilitaryOSINTAdapter] raises a TypeError and hands
    no instance back. *)
Theorem config_mandatory (w : world) :
  raised (construct MilitaryOSINTAdapter [] [] w) = Some TypeError /\
  returned (construct MilitaryOSINTAdapter [] [] w) = None.
Proof. split; reflexivity. Qed.

(** C10: constructing [MilitaryOSINTAdapter] with [c] allocates one object
    whose dictionary has the single key [config], and touches nothing else
    (no other object, no outside effect); [SimAdapter] is constructible with
    no argument, its instance has an empty dictionary, and its class body
    defines no function. *)
Theorem construction_frame (w : world) (c : value) :
  (exists l w' attrs,
      construct MilitaryOSINTAdapter [c] [] w = (Ok (VRef l), w') /\
      heap w !! l = None /\
      heap w' !! l = Some (OInstance MilitaryOSINTAdapter attrs) /\
      attrs = {["config" := c]} /\
      dom attrs = ({["config"]} : gset string) /\
      (forall l', l' <> l -> heap w' !! l' = heap w !! l') /\
      effects w' = effects w) /\
  (exists l w',
      construct SimAdapter [] [] w = (Ok (VRef l), w') /\
      heap w !! l = None /\
      heap w' !! l = Some (OInstance SimAdapter ∅) /\
      (forall l', l' <> l -> heap w' !! l' = heap w !! l') /\
      effects w' = effects w) /\
  class_dict SimAdapter = [] /\
  Source.defs Source.SimAdapter_src = [].
Proof.
  split; [|split; [|split; reflexivity]].
  - eexists _, _, _. split; [apply construct_MilitaryOSINTAdapter|].
    split; [apply new_loc_free|].
    split; [apply lookup_insert_eq|].
    split; [reflexivity|].
    split; [apply dom_singleton_L|].
    split; [|reflexivity].
    intros l' Hne. apply lookup_insert_ne. congruence.
  - eexists _, _. split; [apply construct_SimAdapter|].
    split; [apply new_loc_free|].
    split; [apply lookup_insert_eq|].
    split; [|reflexivity].
    intros l' Hne. apply lookup_insert_ne. congruence.
Qed.

(** ** Polling *)

(** Every run hands back an adapter in the state the constructor left. *)
Lemma adapter_run_adapter (w : world) (c : value) (n : nat) :
  exists l w',
    adapter_run c n w = (Ok (VRef l), w') /\
    adapter_at w' l {["config" := c]}.
Proof.
  eexists _, _. rewrite adapter_run_eq.
  split; [apply construct_MilitaryOSINTAdapter | apply constructed_adapter_at].
Qed.

(** C3: on every constructed adapter (whatever the world and the
    configuration it was built from, and however many times it was polled
    before), invoking [poll] returns normally and raises nothing. *)
Theorem poll_returns_normally (w : world) (c : value) (n : nat) :
  exists a w',
    adapter_run c n w = (Ok a, w') /\
    raised (call_method a "poll" [] [] w') = None /\
    is_Some (returned (call_method a "poll" [] [] w')).
Proof.
  destruct (adapter_run_adapter w c n) as (l & w' & Hrun & Ha).
  exists (VRef l), w'. split; [exact Hrun|].
  rewrite (poll_returns _ _ _ Ha). split; [reflexivity | eexists; reflexivity].
Qed.

(** C4: invoking [poll] on a constructed adapter leaves the world as it
    was: the store (hence every attribute of the adapter, [config]
    included, and every other object) and the trace of outside effects are
    the same before and after the call. *)
Theorem poll_no_side_effect (w : world) (c : value) (n : nat) :
  exists a w',
    adapter_run c n w = (Ok a, w') /\
    final (call_method a "poll" [] [] w') = w' /\
    heap (final (call_method a "poll" [] [] w')) = heap w' /\
    effects (final (call_method a "poll" [] [] w')) = effects w' /\
    state_of (final (call_method a "poll" [] [] w')) a = state_of w' a /\
    getattr a "config" (final (call_method a "poll" [] [] w')) = (Ok c, w').
Proof.
  destruct (adapter_run_adapter w c n) as (l & w' & Hrun & Ha).
  exists (VRef l), w'. split; [exact Hrun|].
  rewrite (poll_returns _ _ _ Ha). cbn [final snd].
  repeat split.
  eapply getattr_instance; [exact Ha | apply lookup_singleton_eq].
Qed.

(** C5: [poll] has the single parameter [self]; invoked on a constructed
    adapter with no argument it returns [None], and any further argument,
    positional or keyword, is refused with a TypeError. *)
Theorem poll_signature (w : world) (c : value) (n : nat) :
  fn_params <$> class_lookup MilitaryOSINTAdapter "poll" = Some ["self"] /\
  Source.fd_params Source.poll_src = ["self"] /\
  exists a w',
    adapter_run c n w = (Ok a, w') /\
    call_method a "poll" [] [] w' = (Ok VNone, w') /\
    (forall x args kwargs,
        raised (call_method a "poll" (x :: args) kwargs w') = Some TypeError) /\
    (forall k v kwargs,
        raised (call_method a "poll" [] ((k, v) :: kwargs) w') = Some TypeError).
Proof.
  split; [reflexivity|]. split; [reflexivity|].
  destruct (adapter_run_adapter w c n) as (l & w' & Hrun & Ha).
  exists (VRef l), w'. split; [exact Hrun|].
  split; [exact (poll_returns _ _ _ Ha)|]. split.
  - intros x args kwargs. rewrite (poll_extra_positional _ _ _ Ha). reflexivity.
  - intros k v kwargs. rewrite (poll_extra_keyword _ _ _ Ha). reflexivity.
Qed.

(** C6: an adapter has one state: for every configuration [c] and every
    number [n] of successive [poll] invocations, the run ends with the same
    adapter in the same world, hence in the same state, as the construction
    alone. *)
Theorem single_state (w : world) (c : value) (n : nat) :
  adapter_run c n w = construct MilitaryOSINTAdapter [c] [] w /\
  exists a,
    returned (adapter_run c n w) = Some a /\
    returned (construct MilitaryOSINTAdapter [c] [] w) = Some a /\
    state_of (final (adapter_run c n w)) a =
    state_of (final (construct MilitaryOSINTAdapter [c] [] w)) a /\
    state_of (final (adapter_run c n w)) a =
    Some (OInstance MilitaryOSINTAdapter {["config" := c]}).
Proof.
  split; [apply adapter_run_eq|].
  rewrite adapter_run_eq, construct_MilitaryOSINTAdapter.
  eexists. repeat split. apply lookup_insert_eq.
Qed.

(** C9: construction and polling are deterministic: adapters built from
    the same configuration, in whatever two worlds, are in the same state,
    and [poll] on each returns [None] and leaves its world unchanged. *)
Theorem deterministic (w1 w2 : world) (c : value) :
  exists a1 w1' a2 w2',
    construct MilitaryOSINTAdapter [c] [] w1 = (Ok a1, w1') /\
    construct MilitaryOSINTAdapter [c] [] w2 = (Ok a2, w2') /\
    state_of w1' a1 = state_of w2' a2 /\
    is_Some (state_of w1' a1) /\
    call_method a1 "poll" [] [] w1' = (Ok VNone, w1') /\
    call_method a2 "poll" [] [] w2' = (Ok VNone, w2').
Proof.
  eexists _, _, _, _.
  split; [apply construct_MilitaryOSINTAdapter|].
  split; [apply construct_MilitaryOSINTAdapter|].
  cbn [state_of with_object heap]. rewrite !lookup_insert_eq.
  split; [reflexivity|]. split; [eexists; reflexivity|].
  split; eapply poll_returns, constructed_adapter_at.
Qed.

(** C7: nothing in the module raises or catches: constructing
    [SimAdapter], constructing [MilitaryOSINTAdapter] with a configuration
    and invoking [poll] all end normally, and no function body of either
    class contains a [raise] or a [try]. *)
Theorem no_exceptions (w : world) (c : value) (n : nat) :
  raised (construct SimAdapter [] [] w) = None /\
  raised (construct MilitaryOSINTAdapter [c] [] w) = None /\
  raised (adapter_run c n w) = None /\
  (exists a w',
      adapter_run c n w = (Ok a, w') /\
      raised (call_method a "poll" [] [] w') = None) /\
  (forall cd fd,
      cd ∈ Source.module_src -> fd ∈ Source.defs cd ->
      Source.raises (Source.fd_body fd) = false /\
      Source.handles (Source.fd_body fd) = false).
Proof.
  split; [reflexivity|].
  split; [rewrite construct_MilitaryOSINTAdapter; reflexivity|].
  split; [rewrite adapter_run_eq, construct_MilitaryOSINTAdapter; reflexivity|].
  split.
  - destruct (adapter_run_adapter w c n) as (l & w' & Hrun & Ha).
    exists (VRef l), w'. split; [exact Hrun|].
    rewrite (poll_returns _ _ _ Ha). reflexivity.
  - intros cd fd Hcd Hfd.
    repeat (apply elem_of_cons in Hcd as [-> | Hcd]); [| |inversion Hcd];
      cbn in Hfd.
    + inversion Hfd.
    + repeat (apply elem_of_cons in Hfd as [-> | Hfd]);
        [split; reflexivity | split; reflexivity | inversion Hfd].
Qed.

(** ** Running [__init__] again *)

Lemma init_instance w l cls attrs c :
  heap w !! l = Some (OInstance cls attrs) ->
  MilitaryOSINTAdapter.__init__ (VRef l) c w =
  (Ok VNone, with_object w l (OInstance cls (<["config" := c]> attrs))).
Proof.
  intros Hl. unfold MilitaryOSINTAdapter.__init__, bind, setattr.
  rewrite Hl. reflexivity.
Qed.

Lemma call_init w l attrs c :
  heap w !! l = Some (OInstance MilitaryOSINTAdapter attrs) ->
  attrs !! "__init__" = None ->
  call_method (VRef l) "__init__" [c] [] w =
  (Ok VNone,
   with_object w l (OInstance MilitaryOSINTAdapter (<["config" := c]> attrs))).
Proof.
  intros Hl Hi. unfold call_method.
  erewrite bind_ok; cycle 1.
  { unfold getattr. rewrite Hl, Hi. reflexivity. }
  unfold call. rewrite Hl.
  change (class_lookup MilitaryOSINTAdapter "__init__")
    with (Some (def2 "__init__" "self" "config" MilitaryOSINTAdapter.__init__)).
  cbv iota. unfold call_function.
  change (bind_args _ _ _) with (Some [VRef l; c]).
  cbv iota. unfold def2, fn_body. apply init_instance, Hl.
Qed.

Lemma with_object_twice w l o1 o2 :
  with_object (with_object w l o1) l o2 = with_object w l o2.
Proof. unfold with_object. cbn [heap effects]. rewrite insert_insert_eq. reflexivity. Qed.

(** X1: on any instance, of either class and whatever attributes it
    carries, [__init__] returns [None], makes [config] read as the value
    passed, and changes no other attribute of the instance, no other
    object, and nothing outside. *)
Theorem init_sets_only_config (w : world) (l : loc) (cls : classname)
    (attrs : gmap string value) (c : value) :
  heap w !! l = Some (OInstance cls attrs) ->
  exists attrs',
    MilitaryOSINTAdapter.__init__ (VRef l) c w =
    (Ok VNone, with_object w l (OInstance cls attrs')) /\
    attrs' !! "config" = Some c /\
    (forall name, name <> "config" -> attrs' !! name = attrs !! name) /\
    (forall l', l' <> l ->
                heap (with_object w l (OInstance cls attrs')) !! l' = heap w !! l') /\
    effects (with_object w l (OInstance cls attrs')) = effects w.
Proof.
  intros Hl. exists (<["config" := c]> attrs).
  split; [apply init_instance, Hl|].
  split; [apply lookup_insert_eq|].
  split; [intros name Hne; apply lookup_insert_ne; congruence|].
  split; [|reflexivity].
  intros l' Hne. apply lookup_insert_ne. congruence.
Qed.

Lemma init_sets_only_config_witness :
  heap w2 !! 1%positive = Some (OInstance SimAdapter {["name" := VStr "sim"]}) /\
  exists attrs',
    MilitaryOSINTAdapter.__init__ (VRef 1%positive) (VInt 5) w2 =
    (Ok VNone, with_object w2 1%positive (OInstance SimAdapter attrs')) /\
    attrs' !! "config" = Some (VInt 5) /\
    (forall name, name <> "config" ->
                  attrs' !! name = ({["name" := VStr "sim"]} : gmap string value) !! name) /\
    (forall l', l' <> 1%positive ->
                heap (with_object w2 1%positive (OInstance SimAdapter attrs')) !! l'
                = heap w2 !! l') /\
    effects (with_object w2 1%positive (OInstance SimAdapter attrs')) = effects w2.
Proof.
  split; [reflexivity|].
  apply (init_sets_only_config w2 1%positive SimAdapter
           {["name" := VStr "sim"]} (VInt 5)).
  reflexivity.
Defined.

(** X6: [__init__] run on something that has no attribute dictionary (an
    immediate, a bound method, a list or a dictionary object) raises an
    AttributeError and leaves the world as it was. *)
Theorem init_rejects_non_instances (w : world) (self c : value) :
  has_dict w self = false ->
  dangling w self = false ->
  MilitaryOSINTAdapter.__init__ self c w = (Raise AttributeError, w).
Proof.
  intros Hd Hg. unfold MilitaryOSINTAdapter.__init__, bind, setattr.
  destruct self as [| | | | l |]; try reflexivity.
  cbn in Hd, Hg. destruct (heap w !! l) as [[]|]; try discriminate; reflexivity.
Qed.

Lemma init_rejects_non_instances_witness :
  has_dict w1 (VRef 2%positive) = false /\
  dangling w1 (VRef 2%positive) = false /\
  MilitaryOSINTAdapter.__init__ (VRef 2%positive) (VInt 5) w1
  = (Raise AttributeError, w1).
Proof.
  split; [vm_compute; reflexivity|].
  split; [vm_compute; reflexivity|].
  apply (init_rejects_non_instances w1 (VRef 2%positive) (VInt 5));
    vm_compute; reflexivity.
Defined.

(** ** Sessions *)

(** One step of a session on an adapter in the state the constructor
    leaves: the adapter stays in such a state, for the configuration given
    last. *)
Lemma run_op_constructed w l c o :
  run_op (VRef l) o
         (with_object w l (OInstance MilitaryOSINTAdapter {["config" := c]})) =
  (Ok VNone,
   with_object w l
     (OInstance MilitaryOSINTAdapter {["config" := last_config c [o]]})).
Proof.
  destruct o as [|c']; cbn [run_op last_config].
  - eapply poll_returns. split.
    + apply lookup_insert_eq.
    + apply lookup_singleton_ne. discriminate.
  - erewrite call_init.
    + rewrite with_object_twice, insert_singleton_eq. reflexivity.
    + apply lookup_insert_eq.
    + apply lookup_singleton_ne. discriminate.
Qed.

Lemma run_ops_constructed w l ops : forall c,
  run_ops (VRef l) ops
          (with_object w l (OInstance MilitaryOSINTAdapter {["config" := c]})) =
  (Ok tt,
   with_object w l
     (OInstance MilitaryOSINTAdapter {["config" := last_config c ops]})).
Proof.
  induction ops as [|o ops IH]; intros c; [reflexivity|].
  cbn [run_ops]. erewrite bind_ok by apply run_op_constructed.
  rewrite IH. destruct o; reflexivity.
Qed.

(** X2: whatever sequence of [poll] invocations and re-initialisations a
    caller runs on an adapter, the outcome is the adapter and the world
    that constructing it with the last configuration given would have
    produced: polls count for nothing and a later [__init__] replaces the
    configuration without leaving a trace of the earlier one. *)
Theorem session_is_last_config (w : world) (c : value) (ops : list op) :
  adapter_session c ops w =
  construct MilitaryOSINTAdapter [last_config c ops] [] w.
Proof.
  unfold adapter_session.
  erewrite bind_ok by apply construct_MilitaryOSINTAdapter.
  erewrite bind_ok by apply run_ops_constructed.
  symmetry. apply construct_MilitaryOSINTAdapter.
Qed.

(** ** Two adapters *)

(** X3: two adapters built one after the other are different objects, each
    reads back its own configuration, and re-initialising the second
    leaves the configuration of the first alone. *)
Theorem adapters_independent (w : world) (c1 c2 c3 : value) :
  exists a1 a2 w',
    two_adapters c1 c2 w = (Ok (a1, a2), w') /\
    a1 <> a2 /\
    getattr a1 "config" w' = (Ok c1, w') /\
    getattr a2 "config" w' = (Ok c2, w') /\
    exists w'',
      call_method a2 "__init__" [c3] [] w' = (Ok VNone, w'') /\
      getattr a1 "config" w'' = (Ok c1, w'') /\
      getattr a2 "config" w'' = (Ok c3, w'').
Proof.
  set (l1 := new_loc w).
  set (w1' := with_object w l1 (OInstance MilitaryOSINTAdapter {["config" := c1]})).
  set (l2 := new_loc w1').
  set (w2' := with_object w1' l2 (OInstance MilitaryOSINTAdapter {["config" := c2]})).
  assert (Hne : l2 <> l1).
  { intros Heq. pose proof (new_loc_free w1') as Hfree. fold l2 in Hfree.
    rewrite Heq in Hfree. unfold w1', with_object in Hfree. cbn [heap] in Hfree.
    rewrite lookup_insert_eq in Hfree. discriminate. }
  assert (H1 : heap w2' !! l1 =
               Some (OInstance MilitaryOSINTAdapter {["config" := c1]})).
  { unfold w2', with_object. cbn [heap]. rewrite lookup_insert_ne by exact Hne.
    apply lookup_insert_eq. }
  assert (H2 : heap w2' !! l2 =
               Some (OInstance MilitaryOSINTAdapter {["config" := c2]})).
  { unfold w2', with_object. cbn [heap]. apply lookup_insert_eq. }
  exists (VRef l1), (VRef l2), w2'. split.
  { unfold two_adapters.
    erewrite bind_ok by apply construct_MilitaryOSINTAdapter.
    erewrite bind_ok by apply construct_MilitaryOSINTAdapter.
    reflexivity. }
  split; [congruence|].
  split; [unfold getattr; rewrite H1, lookup_singleton_eq; reflexivity|].
  split; [unfold getattr; rewrite H2, lookup_singleton_eq; reflexivity|].
  eexists. split.
  { apply call_init; [exact H2 | apply lookup_singleton_ne; discriminate]. }
  split.
  - unfold getattr, with_object. cbn [heap].
    rewrite lookup_insert_ne by exact Hne.
    rewrite H1, lookup_singleton_eq. reflexivity.
  - unfold getattr, with_object. cbn [heap].
    rewrite lookup_insert_eq, lookup_insert_eq. reflexivity.
Qed.

(** ** Call shapes *)

(** What binding the parameters of [__init__] accepts once the instance
    is in front: one positional configuration, or the keyword [config]
    alone. *)
Lemma bind_init_args obj args kwargs :
  bind_args ["self"; "config"] (obj :: args) kwargs =
  match args, kwargs with
  | [c], [] => Some [obj; c]
  | [], [(k, c)] => if decide (k = "config") then Some [obj; c] else None
  | _, _ => None
  end.
Proof.
  unfold bind_args.
  destruct args as [|c1 [|c2 args]]; [| |reflexivity].
  - destruct kwargs as [|[k v] kwargs]; [reflexivity|].
    cbn [positional fmap option_fmap option_map keywords keyword].
    destruct (decide ("self" = k)) as [<-|Hs].
    { destruct kwargs as [|[] ?]; reflexivity. }
    cbn [fmap option_fmap option_map].
    destruct (decide ("config" = k)) as [<-|Hc].
    + cbn [fmap option_fmap option_map].
      destruct kwargs as [|[k2 v2] kwargs]; [reflexivity|].
      cbn [keywords keyword].
      destruct (decide ("self" = k2)); [reflexivity|].
      cbn [fmap option_fmap option_map].
      destruct (decide ("config" = k2)); reflexivity.
    + cbn [fmap option_fmap option_map].
      destruct kwargs as [|[] ?];
        (destruct (decide (k = "config")); [congruence | reflexivity]).
  - destruct kwargs as [|[k v] kwargs]; [reflexivity|].
    cbn [positional fmap option_fmap option_map keywords keyword].
    destruct (decide ("self" = k)); [reflexivity|].
    cbn [fmap option_fmap option_map].
    destruct (decide ("config" = k)); reflexivity.
Qed.

Lemma construct_unfold w args kwargs :
  construct MilitaryOSINTAdapter args kwargs w =
  match bind_args ["self"; "config"] (VRef (new_loc w) :: args) kwargs with
  | Some vs =>
      bind (fn_body (def2 "__init__" "self" "config"
                          MilitaryOSINTAdapter.__init__) vs)
           (fun r => match r with
                     | VNone => ret (VRef (new_loc w))
                     | _ => raise TypeError
                     end)
           (with_object w (new_loc w) (OInstance MilitaryOSINTAdapter ∅))
  | None =>
      (Raise TypeError,
       with_object w (new_loc w) (OInstance MilitaryOSINTAdapter ∅))
  end.
Proof.
  unfold construct, object___new__.
  change (defines MilitaryOSINTAdapter "__init__") with true.
  rewrite andb_false_r.
  erewrite bind_ok by reflexivity.
  change (class_lookup MilitaryOSINTAdapter "__init__")
    with (Some (def2 "__init__" "self" "config" MilitaryOSINTAdapter.__init__)).
  cbv iota. unfold call_function, new_loc.
  cbn [fn_params def2].
  destruct (bind_args _ _ _); reflexivity.
Qed.

(** X4: the constructor takes the configuration and nothing else.  A call
    either passes exactly one configuration, by position or as the keyword
    [config], and then raises nothing; or it has any other shape (no
    argument, more than one, another keyword, [config] twice) and raises a
    TypeError. *)
Theorem constructor_arity (w : world) (args : list value)
    (kwargs : list (string * value)) :
  (exists c,
      passes_config args kwargs c /\
      raised (construct MilitaryOSINTAdapter args kwargs w) = None) \/
  ((forall c, ~ passes_config args kwargs c) /\
   raised (construct MilitaryOSINTAdapter args kwargs w) = Some TypeError).
Proof.
  destruct args as [|c1 [|c2 args]]; destruct kwargs as [|[k v] kwargs].
  - right. split; [intros c [[? _]|[_ ?]]; discriminate|].
    rewrite construct_unfold, bind_init_args. reflexivity.
  - destruct kwargs as [|kv kwargs].
    + destruct (decide (k = "config")) as [->|Hk].
      * left. exists v. split; [right; split; reflexivity|].
        rewrite construct_MilitaryOSINTAdapter_kw,
          construct_MilitaryOSINTAdapter. reflexivity.
      * right. split; [intros c [[? _]|[_ ?]]; congruence|].
        rewrite construct_unfold, bind_init_args.
        destruct (decide (k = "config")); [congruence | reflexivity].
    + right. split; [intros c [[? _]|[_ ?]]; discriminate|].
      rewrite construct_unfold, bind_init_args. reflexivity.
  - left. exists c1. split; [left; split; reflexivity|].
    rewrite construct_MilitaryOSINTAdapter. reflexivity.
  - right. split; [intros c [[_ ?]|[? _]]; discriminate|].
    rewrite construct_unfold, bind_init_args. reflexivity.
  - right. split; [intros c [[? _]|[? _]]; discriminate|].
    rewrite construct_unfold, bind_init_args. reflexivity.
  - right. split; [intros c [[? _]|[? _]]; discriminate|].
    rewrite construct_unfold, bind_init_args. reflexivity.
Qed.

(** X5: [SimAdapter] is bare.  Called with any argument, positional or
    keyword, it raises a TypeError before an instance is allocated, so the
    world is left as it was; called with none it yields an instance that
    offers neither [poll] nor [config]: both raise an AttributeError and
    the failed access changes nothing. *)
Theorem SimAdapter_is_bare (w : world) :
  (forall x args kwargs,
      construct SimAdapter (x :: args) kwargs w = (Raise TypeError, w)) /\
  (forall k v kwargs,
      construct SimAdapter [] ((k, v) :: kwargs) w = (Raise TypeError, w)) /\
  exists a w',
    construct SimAdapter [] [] w = (Ok a, w') /\
    call_method a "poll" [] [] w' = (Raise AttributeError, w') /\
    getattr a "config" w' = (Raise AttributeError, w').
Proof.
  split; [intros; reflexivity|]. split; [intros; reflexivity|].
  eexists _, _. split; [apply construct_SimAdapter|].
  unfold call_method, bind, getattr, with_object. cbn [heap].
  rewrite lookup_insert_eq, !lookup_empty. split; reflexivity.
Qed.

(** ** Runs on concrete worlds

    [w1] holds a dictionary at location 1 and a list at location 2; the
    next free location is 3. *)

Example construct_with_dict :
  returned (construct MilitaryOSINTAdapter [VRef 1%positive] [] w1)
  = Some (VRef 3%positive).
Proof. vm_compute. reflexivity. Qed.

(** The stored configuration is the reference that was passed, not a copy
    of the dictionary it points to. *)
Example config_is_same_reference :
  returned ((a <- construct MilitaryOSINTAdapter [VRef 1%positive] [] ;;
             getattr a "config") w1)
  = Some (VRef 1%positive).
Proof. vm_compute. reflexivity. Qed.

Example construct_in_empty_world :
  construct MilitaryOSINTAdapter [VStr "cfg"] [] w0
  = (Ok (VRef 1%positive),
     World {[1%positive := OInstance MilitaryOSINTAdapter
                             {["config" := VStr "cfg"]}]} []).
Proof. vm_compute. reflexivity. Qed.

Example construct_without_config :
  raised (construct MilitaryOSINTAdapter [] [] w1) = Some TypeError.
Proof. vm_compute. reflexivity. Qed.

Example construct_with_two_configs :
  raised (construct MilitaryOSINTAdapter [VInt 1; VInt 2] [] w1)
  = Some TypeError.
Proof. vm_compute. reflexivity. Qed.

Example construct_with_unknown_keyword :
  raised (construct MilitaryOSINTAdapter [] [("cfg", VInt 1)] w1)
  = Some TypeError.
Proof. vm_compute. reflexivity. Qed.

Example SimAdapter_with_argument :
  raised (construct SimAdapter [VInt 3] [] w1) = Some TypeError.
Proof. vm_compute. reflexivity. Qed.

Example SimAdapter_has_no_poll :
  raised ((a <- construct SimAdapter [] [] ;; call_method a "poll" [] []) w1)
  = Some AttributeError.
Proof. vm_compute. reflexivity. Qed.

Example three_polls :
  adapter_run (VInt 7) 3 w1 = adapter_run (VInt 7) 0 w1.
Proof. vm_compute. reflexivity. Qed.

Example poll_with_argument :
  raised ((a <- construct MilitaryOSINTAdapter [VNone] [] ;;
           call_method a "poll" [VInt 1] []) w1)
  = Some TypeError.
Proof. vm_compute. reflexivity. Qed.

(** An instance attribute named [poll] would hide the method: the
    hypothesis of [adapter_at] is not for show. *)
Example shadowed_poll :
  raised ((a <- construct MilitaryOSINTAdapter [VNone] [] ;;
           setattr a "poll" (VInt 0) ;;;
           call_method a "poll" [] []) w1)
  = Some TypeError.
Proof. vm_compute. reflexivity. Qed.

Example init_on_a_list :
  raised (MilitaryOSINTAdapter.__init__ (VRef 2%positive) VNone w1)
  = Some AttributeError.
Proof. vm_compute. reflexivity. Qed.

(** The syntactic checks do see a handler or a [raise] where there is
    one. *)
Example handles_sees_try :
  Source.handles (Source.SSeq Source.SPass
                    (Source.STry (Source.SRaise TypeError) Source.SPass))
  = true /\
  Source.raises (Source.SSeq Source.SPass
                   (Source.STry (Source.SRaise TypeError) Source.SPass))
  = true.
Proof. split; reflexivity. Qed.
